(** * Device controls (Source.cpp): a shallow embedding

    The program declares four device classes on top of the CRTP base
    [ElectronicDeviceControl<Derived>], each with the five special member
    functions written out, and a test routine [runTests] called by [main].

    Modelling choices.
    - An object is a record of its data members.  [int] is modelled as [Z];
      the program performs no arithmetic on it, only comparisons and
      assignments, so no wrap-around arises.
    - A member function that writes to [std::cout] returns the object
      afterwards together with the text written; [std::endl] is the
      newline character.
    - The CRTP base is a type class: [turnOn] and [turnOff] dispatch
      statically to the instance's [doTurnOn] and [doTurnOff].
    - The assignment operators compare [this] with [&other], so objects
      live in a store indexed by address and the operators take addresses. *)

From stdpp Require Import base strings list pretty.
From Stdlib Require Import ZArith Lia Ascii.

(** ** Console *)

(** [std::endl]: the newline character (the flush is not observable here). *)
Definition endl : string := String "010"%char "".

(** [std::cout << s << std::endl] *)
Definition println (s : string) : string := s +:+ endl.

(** ** The CRTP base class *)

Class ElectronicDeviceControl (Derived : Type) := {
  doTurnOn : Derived → Derived * string;
  doTurnOff : Derived → Derived * string;
}.

Section Base.
Context `{ElectronicDeviceControl Derived}.

(** [static_cast<Derived*>(this)->doTurnOn()] *)
Definition turnOn (this : Derived) : Derived * string := doTurnOn this.

(** [static_cast<Derived*>(this)->doTurnOff()] *)
Definition turnOff (this : Derived) : Derived * string := doTurnOff this.
End Base.

(** ** The special member functions

    [copy_assign_fields] and [move_assign_fields] are the bodies of the two
    assignment operators under their guard [this != &other], where [this]
    and [other] are two distinct objects; the guard itself is in [exec]
    below.  The move operations also write to [other]: they return the
    pair of the constructed (or assigned) object and [other] afterwards. *)

Class RuleOfFive (T : Type) := {
  default_ctor : T;
  copy_ctor : T → T;
  copy_assign_fields : T → T → T;
  move_ctor : T → T * T;
  move_assign_fields : T → T → T * T;
}.

(** ** LightControl *)

Module LightControl.
Record t := mk { isOn : bool }.

Definition ctor : t := {| isOn := false |}.

Definition doTurnOn (this : t) : t * string :=
  ({| isOn := true |}, println "Light is ON").

Definition doTurnOff (this : t) : t * string :=
  ({| isOn := false |}, println "Light is OFF").

Definition isLightOn (this : t) : bool := isOn this.

Definition copy_ctor (other : t) : t := {| isOn := isOn other |}.

Definition copy_assign_fields (this other : t) : t :=
  {| isOn := isOn other |}.

Definition move_ctor (other : t) : t * t :=
  ({| isOn := isOn other |}, {| isOn := false |}).

Definition move_assign_fields (this other : t) : t * t :=
  ({| isOn := isOn other |}, {| isOn := false |}).
End LightControl.

#[export] Instance LightControl_device : ElectronicDeviceControl LightControl.t :=
  {| doTurnOn := LightControl.doTurnOn; doTurnOff := LightControl.doTurnOff |}.

#[export] Instance LightControl_five : RuleOfFive LightControl.t :=
  {| default_ctor := LightControl.ctor;
     copy_ctor := LightControl.copy_ctor;
     copy_assign_fields := LightControl.copy_assign_fields;
     move_ctor := LightControl.move_ctor;
     move_assign_fields := LightControl.move_assign_fields |}.

(** ** ThermostatControl *)

Module ThermostatControl.
Record t := mk { isOn : bool; temperature : Z }.

Definition ctor : t := {| isOn := false; temperature := 20 |}.

Definition doTurnOn (this : t) : t * string :=
  ({| isOn := true; temperature := temperature this |},
   println "Thermostat is ON").

Definition doTurnOff (this : t) : t * string :=
  ({| isOn := false; temperature := temperature this |},
   println "Thermostat is OFF").

Definition setTemperature (temp : Z) (this : t) : t * string :=
  if isOn this && (temp >=? 10)%Z && (temp <=? 30)%Z then
    ({| isOn := isOn this; temperature := temp |},
     println ("Thermostat temperature set to: " +:+ pretty temp))
  else if negb (isOn this) then
    (this, println "Cannot set temperature, thermostat is off.")
  else
    (this,
     println "Invalid temperature. Temperature must be between 10 and 30.").

Definition getTemperature (this : t) : Z := temperature this.

Definition copy_ctor (other : t) : t :=
  {| isOn := isOn other; temperature := temperature other |}.

Definition copy_assign_fields (this other : t) : t :=
  {| isOn := isOn other; temperature := temperature other |}.

Definition move_ctor (other : t) : t * t :=
  ({| isOn := isOn other; temperature := temperature other |},
   {| isOn := false; temperature := 0 |}).

Definition move_assign_fields (this other : t) : t * t :=
  ({| isOn := isOn other; temperature := temperature other |},
   {| isOn := false; temperature := 0 |}).
End ThermostatControl.

#[export] Instance ThermostatControl_device :
  ElectronicDeviceControl ThermostatControl.t :=
  {| doTurnOn := ThermostatControl.doTurnOn;
     doTurnOff := ThermostatControl.doTurnOff |}.

#[export] Instance ThermostatControl_five : RuleOfFive ThermostatControl.t :=
  {| default_ctor := ThermostatControl.ctor;
     copy_ctor := ThermostatControl.copy_ctor;
     copy_assign_fields := ThermostatControl.copy_assign_fields;
     move_ctor := ThermostatControl.move_ctor;
     move_assign_fields := ThermostatControl.move_assign_fields |}.

(** ** SmartLockControl *)

Module SmartLockControl.
Record t := mk { isLocked : bool }.

Definition ctor : t := {| isLocked := true |}.

Definition doTurnOn (this : t) : t * string :=
  ({| isLocked := false |}, println "Smart Lock is UNLOCKED").

Definition doTurnOff (this : t) : t * string :=
  ({| isLocked := true |}, println "Smart Lock is LOCKED").

Definition getLockStatus (this : t) : bool := isLocked this.

Definition copy_ctor (other : t) : t := {| isLocked := isLocked other |}.

Definition copy_assign_fields (this other : t) : t :=
  {| isLocked := isLocked other |}.

Definition move_ctor (other : t) : t * t :=
  ({| isLocked := isLocked other |}, {| isLocked := true |}).

Definition move_assign_fields (this other : t) : t * t :=
  ({| isLocked := isLocked other |}, {| isLocked := true |}).
End SmartLockControl.

#[export] Instance SmartLockControl_device :
  ElectronicDeviceControl SmartLockControl.t :=
  {| doTurnOn := SmartLockControl.doTurnOn;
     doTurnOff := SmartLockControl.doTurnOff |}.

#[export] Instance SmartLockControl_five : RuleOfFive SmartLockControl.t :=
  {| default_ctor := SmartLockControl.ctor;
     copy_ctor := SmartLockControl.copy_ctor;
     copy_assign_fields := SmartLockControl.copy_assign_fields;
     move_ctor := SmartLockControl.move_ctor;
     move_assign_fields := SmartLockControl.move_assign_fields |}.

(** ** GarageDoorControl *)

Module GarageDoorControl.
Record t := mk { isOpen : bool }.

Definition ctor : t := {| isOpen := false |}.

Definition doTurnOn (this : t) : t * string :=
  ({| isOpen := true |}, println "Garage Door is OPEN").

Definition doTurnOff (this : t) : t * string :=
  ({| isOpen := false |}, println "Garage Door is CLOSED").

Definition getIsOpen (this : t) : bool := isOpen this.

Definition copy_ctor (other : t) : t := {| isOpen := isOpen other |}.

Definition copy_assign_fields (this other : t) : t :=
  {| isOpen := isOpen other |}.

Definition move_ctor (other : t) : t * t :=
  ({| isOpen := isOpen other |}, {| isOpen := false |}).

Definition move_assign_fields (this other : t) : t * t :=
  ({| isOpen := isOpen other |}, {| isOpen := false |}).
End GarageDoorControl.

#[export] Instance GarageDoorControl_device :
  ElectronicDeviceControl GarageDoorControl.t :=
  {| doTurnOn := GarageDoorControl.doTurnOn;
     doTurnOff := GarageDoorControl.doTurnOff |}.

#[export] Instance GarageDoorControl_five : RuleOfFive GarageDoorControl.t :=
  {| default_ctor := GarageDoorControl.ctor;
     copy_ctor := GarageDoorControl.copy_ctor;
     copy_assign_fields := GarageDoorControl.copy_assign_fields;
     move_ctor := GarageDoorControl.move_ctor;
     move_assign_fields := GarageDoorControl.move_assign_fields |}.

(** ** Objects in memory

    A store lists the live objects of one class; an object's address is its
    index.  Constructors place the new object at a fresh address.  The
    destructors are defaulted and have no effect, so objects are never
    removed.  An operation on an address that names no object has no
    defined behaviour and yields [None]. *)

Abbreviation addr := nat (only parsing).

Inductive op : Type :=
| New                              (* T x; *)
| TurnOn (this : addr)             (* x.turnOn(); *)
| TurnOff (this : addr)            (* x.turnOff(); *)
| CopyNew (other : addr)           (* T y(x); *)
| CopyAssign (this other : addr)   (* y = x; *)
| MoveNew (other : addr)           (* T y(std::move(x)); *)
| MoveAssign (this other : addr).  (* y = std::move(x); *)

Section Store.
Context `{ElectronicDeviceControl T, RuleOfFive T}.

(** A member function called on the object at [this]. *)
Definition call (m : T → T * string) (this : addr) (h : list T)
  : option (list T * string) :=
  x ← h !! this; Some (<[this := (m x).1]> h, (m x).2).

Definition exec (o : op) (h : list T) : option (list T * string) :=
  match o with
  | New => Some (h ++ [default_ctor], "")
  | TurnOn this => call turnOn this h
  | TurnOff this => call turnOff this h
  | CopyNew other =>
      y ← h !! other; Some (h ++ [copy_ctor y], "")
  | CopyAssign this other =>
      x ← h !! this; y ← h !! other;
      if decide (this ≠ other) then
        Some (<[this := copy_assign_fields x y]> h, "")
      else Some (h, "")
  | MoveNew other =>
      y ← h !! other;
      Some (<[other := (move_ctor y).2]> h ++ [(move_ctor y).1], "")
  | MoveAssign this other =>
      x ← h !! this; y ← h !! other;
      if decide (this ≠ other) then
        Some (<[other := (move_assign_fields x y).2]>
                (<[this := (move_assign_fields x y).1]> h), "")
      else Some (h, "")
  end.
End Store.

(** The thermostat has one member function more. *)
Inductive thermostat_op : Type :=
| Common (o : op)
| SetTemperature (this : addr) (temp : Z).   (* x.setTemperature(temp); *)

Definition thermostat_exec (o : thermostat_op) (h : list ThermostatControl.t)
  : option (list ThermostatControl.t * string) :=
  match o with
  | Common o => exec o h
  | SetTemperature this temp =>
      call (ThermostatControl.setTemperature temp) this h
  end.

(** A sequence of statements, from the left; the texts written are
    concatenated. *)
Fixpoint thermostat_run (os : list thermostat_op) (h : list ThermostatControl.t)
  : option (list ThermostatControl.t * string) :=
  match os with
  | [] => Some (h, "")
  | o :: os =>
      '(h1, s1) ← thermostat_exec o h;
      '(h2, s2) ← thermostat_run os h1;
      Some (h2, s1 +:+ s2)
  end.

(** The stores a program can bring about, starting with no object. *)
Definition reachable (h : list ThermostatControl.t) : Prop :=
  ∃ os out, thermostat_run os [] = Some (h, out).

(** A statement that moves from no object. *)
Definition move_free (o : thermostat_op) : bool :=
  match o with
  | Common (MoveNew _) | Common (MoveAssign _ _) => false
  | _ => true
  end.

(** ** The test routine

    [runTests] works on local objects through their member functions and
    checks them with [assert].  A computation takes the text on [std::cout]
    so far and either returns or aborts at a failed assertion, whose
    expression it reports; in both cases it gives the text written.
    [NDEBUG] is not defined in the source, so the assertions are active. *)

Inductive outcome (A : Type) : Type :=
| Returned (a : A)
| Aborted (expr : string).
Arguments Returned {A} a.
Arguments Aborted {A} expr.

Definition Run (A : Type) : Type := string → outcome A * string.

#[export] Instance Run_ret : MRet Run := λ A a out, (Returned a, out).

#[export] Instance Run_bind : MBind Run := λ A B f m out,
  match m out with
  | (Returned a, out') => f a out'
  | (Aborted expr, out') => (Aborted expr, out')
  end.

Definition assert (cond : bool) (expr : string) : Run unit :=
  λ out, (if cond then Returned tt else Aborted expr, out).

(** [x.m()] on a local object [x]: the object afterwards is returned and
    rebound by the caller. *)
Definition invoke {T : Type} (m : T → T * string) (this : T) : Run T :=
  λ out, (Returned (m this).1, out +:+ (m this).2).

Definition runTests : Run unit :=
  let light := LightControl.ctor in
  assert (negb (LightControl.isLightOn light)) "!light.isLightOn()";;
  light ← invoke turnOn light;
  assert (LightControl.isLightOn light) "light.isLightOn()";;
  light ← invoke turnOff light;
  assert (negb (LightControl.isLightOn light)) "!light.isLightOn()";;
  let thermostat := ThermostatControl.ctor in
  assert (ThermostatControl.getTemperature thermostat =? 20)%Z
    "thermostat.getTemperature() == 20";;
  thermostat ← invoke (ThermostatControl.setTemperature 25) thermostat;
  assert (ThermostatControl.getTemperature thermostat =? 25)%Z
    "thermostat.getTemperature() == 25";;
  thermostat ← invoke turnOff thermostat;
  thermostat ← invoke (ThermostatControl.setTemperature 30) thermostat;
  assert (ThermostatControl.getTemperature thermostat =? 25)%Z
    "thermostat.getTemperature() == 25";;
  let lock := SmartLockControl.ctor in
  assert (bool_decide (SmartLockControl.getLockStatus lock = true))
    "lock.getLockStatus() == true";;
  lock ← invoke turnOn lock;
  assert (negb (SmartLockControl.getLockStatus lock)) "!lock.getLockStatus()";;
  lock ← invoke turnOff lock;
  assert (SmartLockControl.getLockStatus lock) "lock.getLockStatus()";;
  let garageDoor := GarageDoorControl.ctor in
  assert (negb (GarageDoorControl.getIsOpen garageDoor))
    "!garageDoor.getIsOpen()";;
  garageDoor ← invoke turnOn garageDoor;
  assert (GarageDoorControl.getIsOpen garageDoor) "garageDoor.getIsOpen()";;
  garageDoor ← invoke turnOff garageDoor;
  assert (negb (GarageDoorControl.getIsOpen garageDoor))
    "!garageDoor.getIsOpen()".

Definition main : Run Z := runTests;; mret 0%Z.


(** ** The specification's reading of the operations *)

(** [setTemperature] as the specification words it: the off check first,
    then the range check, else the assignment. *)
Definition setTemperature_spec (value : Z) (d : ThermostatControl.t)
  : ThermostatControl.t * string :=
  if negb (ThermostatControl.isOn d) then
    (d, println "Cannot set temperature, thermostat is off.")
  else if (value <? 10)%Z || (30 <? value)%Z then
    (d, println "Invalid temperature. Temperature must be between 10 and 30.")
  else
    ({| ThermostatControl.isOn := ThermostatControl.isOn d;
        ThermostatControl.temperature := value |},
     println ("Thermostat temperature set to: " +:+ pretty value)).

(** The eleven documented console lines, [n] being the requested value. *)
Definition documented_lines (n : Z) : list string :=
  [ "Light is ON"; "Light is OFF";
    "Thermostat is ON"; "Thermostat is OFF";
    "Thermostat temperature set to: " +:+ pretty n;
    "Cannot set temperature, thermostat is off.";
    "Invalid temperature. Temperature must be between 10 and 30.";
    "Smart Lock is UNLOCKED"; "Smart Lock is LOCKED";
    "Garage Door is OPEN"; "Garage Door is CLOSED" ].

(** The number of newline characters of a text. *)
Fixpoint newlines (s : string) : nat :=
  match s with
  | EmptyString => 0
  | String c s => (if Ascii.eqb c "010" then 1 else 0) + newlines s
  end.

(** [out] is exactly one line, and that line is a documented one. *)
Definition one_documented_line (n : Z) (out : string) : Prop :=
  ∃ line, out = println line ∧ newlines line = 0 ∧ line ∈ documented_lines n.

(** The statements that call [turnOn] or [turnOff]. *)
Definition switches (o : op) : bool :=
  match o with
  | TurnOn _ | TurnOff _ => true
  | _ => false
  end.

(** What a statement may write: one documented line when it switches the
    device or sets the temperature, nothing otherwise. *)
Definition emits (o : op) (out : string) : Prop :=
  if switches o then ∀ n, one_documented_line n out else out = "".

Definition thermostat_emits (o : thermostat_op) (out : string) : Prop :=
  match o with
  | Common o => emits o out
  | SetTemperature _ temp => one_documented_line temp out
  end.

(** The temperature of a thermostat lies in the documented range. *)
Definition in_range (x : ThermostatControl.t) : Prop :=
  (10 ≤ ThermostatControl.temperature x ≤ 30)%Z.

(** Between two stores, the temperature of an object differs only if the
    object was on, and then the new value lies in the range. *)
Definition temperature_guarded (h h' : list ThermostatControl.t) : Prop :=
  ∀ a x x', h !! a = Some x → h' !! a = Some x' →
    ThermostatControl.temperature x' ≠ ThermostatControl.temperature x →
    ThermostatControl.isOn x = true ∧ in_range x'.

(** Construction, [turnOn], [turnOff], [setTemperature] and copy
    construction: the statements that assign no whole object. *)
Definition assigns_none (o : thermostat_op) : bool :=
  match o with
  | Common New | Common (TurnOn _) | Common (TurnOff _)
  | Common (CopyNew _) | SetTemperature _ _ => true
  | _ => false
  end.

(** The state a move leaves behind in [other], per class. *)
Section MovedFrom.
Context `{ElectronicDeviceControl T, RuleOfFive T}.

Definition moved_from_is (fixed : T) : Prop :=
  (∀ (h : list T) other h' out,
     exec (MoveNew other) h = Some (h', out) → h' !! other = Some fixed) ∧
  (∀ (h : list T) this other h' out,
     this ≠ other →
     exec (MoveAssign this other) h = Some (h', out) →
     h' !! other = Some fixed) ∧
  (∀ (h : list T) this h' out,
     exec (MoveAssign this this) h = Some (h', out) → h' = h).
End MovedFrom.

(** ** State transfer and reachable states *)

(** The thermostat statements that write to the console. *)
Definition prints (o : thermostat_op) : bool :=
  match o with
  | Common o => switches o
  | SetTemperature _ _ => true
  end.

(** The temperature of a thermostat is in the range or is the 0 a move
    leaves behind. *)
Definition in_range_or_reset (x : ThermostatControl.t) : Prop :=
  in_range x ∨ ThermostatControl.temperature x = 0%Z.

Section Transfer.
Context `{ElectronicDeviceControl T, RuleOfFive T}.

(** Copying: the store afterwards is the store before with the source's
    state at the target, the target being the fresh address for the copy
    constructor. *)
Definition copy_transfers : Prop :=
  (∀ (h : list T) other h' out,
     exec (CopyNew other) h = Some (h', out) →
     ∃ y, h !! other = Some y ∧ h' = h ++ [y]) ∧
  (∀ (h : list T) this other h' out,
     exec (CopyAssign this other) h = Some (h', out) →
     ∃ y, h !! other = Some y ∧ h' = <[this := y]> h).

(** Moving: the target holds the state the source had, the target being
    the fresh address for the move constructor. *)
Definition move_transfers : Prop :=
  (∀ (h : list T) other h' out,
     exec (MoveNew other) h = Some (h', out) →
     h' !! length h = h !! other ∧ length h' = S (length h)) ∧
  (∀ (h : list T) this other h' out,
     exec (MoveAssign this other) h = Some (h', out) →
     h' !! this = h !! other ∧ length h' = length h).

(** A switch overrides the switches before it: what [turnOn] and [turnOff]
    give does not depend on a switch made just before. *)
Definition switch_overrides : Prop :=
  ∀ x : T,
    turnOn (turnOn x).1 = turnOn x ∧ turnOn (turnOff x).1 = turnOn x ∧
    turnOff (turnOn x).1 = turnOff x ∧ turnOff (turnOff x).1 = turnOff x.
End Transfer.

(** * Properties *)

(** ** setTemperature *)

Section SetTemperature.
Import ThermostatControl.
Local Open Scope Z_scope.

Lemma setTemperature_off temp x :
  isOn x = false →
  setTemperature temp x =
    (x, println "Cannot set temperature, thermostat is off.").
Proof. unfold setTemperature. by intros ->. Qed.

Lemma setTemperature_out_of_range temp x :
  isOn x = true → temp < 10 ∨ 30 < temp →
  setTemperature temp x =
    (x, println "Invalid temperature. Temperature must be between 10 and 30.").
Proof.
  unfold setTemperature. intros -> Hout. simpl.
  destruct (Z.geb_spec temp 10), (Z.leb_spec temp 30); simpl; done || lia.
Qed.

Lemma setTemperature_accepted temp x :
  isOn x = true → 10 ≤ temp ≤ 30 →
  setTemperature temp x =
    ({| isOn := true; temperature := temp |},
     println ("Thermostat temperature set to: " +:+ pretty temp)).
Proof.
  unfold setTemperature. intros -> Hin. simpl.
  destruct (Z.geb_spec temp 10), (Z.leb_spec temp 30); simpl; done || lia.
Qed.

(** Whatever the branch, the temperature afterwards is the old one or the
    requested one, and the latter only for a device that is on and a value
    in the range. *)
Lemma setTemperature_cases temp x :
  (setTemperature temp x).1 = x ∨
  (isOn x = true ∧ 10 ≤ temp ≤ 30 ∧
   (setTemperature temp x).1 = {| isOn := true; temperature := temp |}).
Proof.
  destruct (isOn x) eqn:Hon.
  - destruct (decide (10 ≤ temp ≤ 30)).
    + right. by rewrite setTemperature_accepted.
    + left. rewrite setTemperature_out_of_range; [done..|lia].
  - left. by rewrite setTemperature_off.
Qed.
End SetTemperature.

(** C3.  [setTemperature] is the two-guard validation of the specification,
    the off check taking precedence: for every thermostat and every value
    it gives the same object and the same notice as [setTemperature_spec];
    and [turnOn] followed by [setTemperature 25] makes [getTemperature]
    return 25. *)
Theorem setTemperature_two_guards :
  (∀ value x,
     ThermostatControl.setTemperature value x = setTemperature_spec value x) ∧
  (∀ x,
     ThermostatControl.getTemperature
       (ThermostatControl.setTemperature 25 (turnOn x).1).1 = 25%Z).
Proof.
  split; [|done].
  intros value [on t]. unfold ThermostatControl.setTemperature,
    setTemperature_spec. simpl.
  destruct on; simpl; [|done].
  destruct (Z.geb_spec value 10), (Z.ltb_spec value 10); try lia; simpl; [|done].
  destruct (Z.leb_spec value 30), (Z.ltb_spec 30 value); try lia; done.
Qed.

(** C4.  For a thermostat that is on, [setTemperature 5] and
    [setTemperature 31] leave the temperature as it was, [setTemperature 10]
    and [setTemperature 30] set it to 10 and to 30; and for every
    thermostat, on or off, after [turnOff], [setTemperature 30] leaves
    [getTemperature] as it was. *)
Theorem setTemperature_boundaries :
  (∀ x : ThermostatControl.t,
     ThermostatControl.isOn x = true →
     ThermostatControl.getTemperature (ThermostatControl.setTemperature 5 x).1
       = ThermostatControl.getTemperature x ∧
     ThermostatControl.getTemperature (ThermostatControl.setTemperature 31 x).1
       = ThermostatControl.getTemperature x ∧
     ThermostatControl.getTemperature (ThermostatControl.setTemperature 10 x).1
       = 10%Z ∧
     ThermostatControl.getTemperature (ThermostatControl.setTemperature 30 x).1
       = 30%Z) ∧
  (∀ x : ThermostatControl.t,
     ThermostatControl.getTemperature
       (ThermostatControl.setTemperature 30 (turnOff x).1).1
       = ThermostatControl.getTemperature x).
Proof.
  split.
  - intros x Hon.
    by rewrite !setTemperature_out_of_range, !setTemperature_accepted
      by (done || lia).
  - intros x. by rewrite setTemperature_off.
Qed.

Lemma setTemperature_boundaries_witness :
  ThermostatControl.isOn (ThermostatControl.mk true 22) = true ∧
  ThermostatControl.getTemperature
    (ThermostatControl.setTemperature 5 (ThermostatControl.mk true 22)).1
    = ThermostatControl.getTemperature (ThermostatControl.mk true 22) ∧
  ThermostatControl.getTemperature
    (ThermostatControl.setTemperature 30 (ThermostatControl.mk true 22)).1
    = 30%Z ∧
  ThermostatControl.getTemperature
    (ThermostatControl.setTemperature 30
       (turnOff (ThermostatControl.mk false 22)).1).1
    = 22%Z.
Proof.
  split; [reflexivity|].
  destruct (proj1 setTemperature_boundaries (ThermostatControl.mk true 22)
              eq_refl) as (H5 & _ & _ & H30).
  exact (conj H5 (conj H30 (proj2 setTemperature_boundaries
                              (ThermostatControl.mk false 22)))).
Defined.

(** C10.  For the thermostat, [turnOn] and [turnOff] set the on flag and
    keep the temperature, and [setTemperature] keeps the on flag, whatever
    the object and the argument. *)
Theorem thermostat_frame (x : ThermostatControl.t) (temp : Z) :
  ThermostatControl.temperature (turnOn x).1 = ThermostatControl.temperature x ∧
  ThermostatControl.isOn (turnOn x).1 = true ∧
  ThermostatControl.temperature (turnOff x).1 = ThermostatControl.temperature x ∧
  ThermostatControl.isOn (turnOff x).1 = false ∧
  ThermostatControl.isOn (ThermostatControl.setTemperature temp x).1
    = ThermostatControl.isOn x.
Proof.
  repeat split.
  destruct (setTemperature_cases temp x) as [->|(Hon & _ & ->)]; [done|].
  by rewrite Hon.
Qed.

(** ** Initial states and switching *)

(** C6.  A default-constructed light is off, a thermostat is off at
    temperature 20, a smart lock is locked and a garage door is closed. *)
Theorem initial_states :
  LightControl.isLightOn default_ctor = false ∧
  ThermostatControl.isOn default_ctor = false ∧
  ThermostatControl.getTemperature default_ctor = 20%Z ∧
  SmartLockControl.getLockStatus default_ctor = true ∧
  GarageDoorControl.getIsOpen default_ctor = false.
Proof. done. Qed.

(** C7.  A new smart lock reports locked; [turnOn] makes the lock query
    return false and [turnOff] makes it return true, whatever the state
    before, so a new lock reads true, false, true along
    [turnOn; turnOff]. *)
Theorem smart_lock_states :
  SmartLockControl.getLockStatus default_ctor = true ∧
  (∀ x : SmartLockControl.t,
     SmartLockControl.getLockStatus (turnOn x).1 = false ∧
     SmartLockControl.getLockStatus (turnOff x).1 = true) ∧
  SmartLockControl.getLockStatus
    (turnOff (turnOn (default_ctor : SmartLockControl.t)).1).1 = true.
Proof. done. Qed.

(** C5, as stated, fails: a light that is on is off after
    [turnOn; turnOff]. *)
Lemma round_trip_from_on_fails :
  ¬ (∀ x : LightControl.t, (turnOff (turnOn x).1).1 = x).
Proof. intros Hall. specialize (Hall {| LightControl.isOn := true |}). done. Qed.

(** C5, amended.  [turnOn] followed by [turnOff] leaves a light off, a
    smart lock locked and a garage door closed, whatever the state before;
    that is the state before exactly when the device was off, locked or
    closed then. *)
Theorem round_trip_ends_switched_off :
  (∀ x : LightControl.t,
     (turnOff (turnOn x).1).1 = {| LightControl.isOn := false |} ∧
     ((turnOff (turnOn x).1).1 = x ↔ LightControl.isLightOn x = false)) ∧
  (∀ x : SmartLockControl.t,
     (turnOff (turnOn x).1).1 = {| SmartLockControl.isLocked := true |} ∧
     ((turnOff (turnOn x).1).1 = x ↔ SmartLockControl.getLockStatus x = true)) ∧
  (∀ x : GarageDoorControl.t,
     (turnOff (turnOn x).1).1 = {| GarageDoorControl.isOpen := false |} ∧
     ((turnOff (turnOn x).1).1 = x ↔ GarageDoorControl.getIsOpen x = false)).
Proof.
  repeat split; destruct x as [[]]; simpl; done || (intros; simplify_eq).
Qed.

(** ** The test routine *)

(** C2.  [main] does not return 0: the second thermostat assertion fails,
    the thermostat being still off when [setTemperature 25] is called, and
    the run aborts there with three lines written. *)
Theorem main_aborts :
  main "" =
    (Aborted "thermostat.getTemperature() == 25",
     println "Light is ON" +:+ println "Light is OFF" +:+
     println "Cannot set temperature, thermostat is off.").
Proof. vm_compute. reflexivity. Qed.

(** ** Console output *)

Lemma newlines_app s1 s2 : newlines (s1 +:+ s2) = newlines s1 + newlines s2.
Proof. induction s1 as [|c s1 IH]; simpl; [done|]. rewrite IH. lia. Qed.

Lemma newlines_pretty_N_go x s :
  newlines s = 0 → newlines (pretty_N_go x s) = 0.
Proof.
  revert s. induction (N.lt_wf_0 x) as [x _ IH]; intros s Hs.
  destruct (decide (x = 0)%N) as [->|Hpos]; [by rewrite pretty_N_go_0|].
  rewrite pretty_N_go_step by lia. apply IH.
  - apply N.div_lt; lia.
  - simpl. rewrite Hs. unfold pretty_N_char. by repeat case_match.
Qed.

(** The decimal rendering of an [int] holds no newline. *)
Lemma newlines_pretty_Z (n : Z) : newlines (pretty n) = 0.
Proof.
  assert (∀ p : positive, newlines (pretty p) = 0) as Hpos.
  { intros p. unfold pretty, pretty_positive, pretty, pretty_N.
    case_decide; [done|]. by apply newlines_pretty_N_go. }
  destruct n as [|p|p]; unfold pretty, pretty_Z; [done|apply Hpos|].
  rewrite newlines_app. simpl. apply Hpos.
Qed.

Lemma println_documented n line :
  newlines line = 0 → line ∈ documented_lines n →
  one_documented_line n (println line).
Proof. intros ??. by exists line. Qed.

Ltac documented :=
  apply println_documented;
  [ rewrite ?newlines_app, ?newlines_pretty_Z; reflexivity
  | unfold documented_lines; rewrite !elem_of_cons; tauto ].

Lemma setTemperature_emits temp x :
  one_documented_line temp (ThermostatControl.setTemperature temp x).2.
Proof.
  unfold ThermostatControl.setTemperature.
  repeat case_match; simpl; documented.
Qed.

(** A statement of the four common kinds writes what [emits] allows, given
    that the two switching functions of the class write documented lines. *)
Section Emits.
Context `{ElectronicDeviceControl T, RuleOfFive T}.
Hypothesis doTurnOn_line : ∀ (x : T) n, one_documented_line n (doTurnOn x).2.
Hypothesis doTurnOff_line : ∀ (x : T) n, one_documented_line n (doTurnOff x).2.

Lemma exec_emits (o : op) (h h' : list T) (out : string) :
  exec o h = Some (h', out) → emits o out.
Proof using doTurnOn_line doTurnOff_line.
  unfold emits, exec, call.
  destruct o; simpl; intros; simplify_option_eq;
    [done|apply doTurnOn_line|apply doTurnOff_line|done..].
Qed.
End Emits.

(** C8.  Every statement on a light, a smart lock, a garage door or a
    thermostat that calls [turnOn], [turnOff] or [setTemperature] writes
    exactly one line, which is one of the eleven documented lines (with the
    requested value in the temperature line), and every other statement
    (construction, copy, move) writes nothing. *)
Theorem console_lines :
  (∀ (h : list LightControl.t) o h' out,
     exec o h = Some (h', out) → emits o out) ∧
  (∀ (h : list SmartLockControl.t) o h' out,
     exec o h = Some (h', out) → emits o out) ∧
  (∀ (h : list GarageDoorControl.t) o h' out,
     exec o h = Some (h', out) → emits o out) ∧
  (∀ (h : list ThermostatControl.t) o h' out,
     thermostat_exec o h = Some (h', out) → thermostat_emits o out).
Proof.
  repeat split; intros h o h' out Hexec.
  1-3: apply exec_emits in Hexec; [done|..]; intros; simpl; documented.
  destruct o as [o|this temp]; simpl in *.
  - apply exec_emits in Hexec; [done|..]; intros; simpl; documented.
  - unfold call in Hexec. simplify_option_eq. apply setTemperature_emits.
Qed.

Lemma console_lines_witness :
  thermostat_exec (SetTemperature 0 25) [ThermostatControl.mk true 20]
    = Some ([ThermostatControl.mk true 25],
            println "Thermostat temperature set to: 25") ∧
  thermostat_emits (SetTemperature 0 25)
    (println "Thermostat temperature set to: 25").
Proof.
  split; [reflexivity|].
  exact (proj2 (proj2 (proj2 console_lines))
           [ThermostatControl.mk true 20] (SetTemperature 0 25) _ _ eq_refl).
Defined.

(** ** The thermostat's temperature across all operations *)

Section Temperature.
Import ThermostatControl.
Local Open Scope Z_scope.

Lemma in_range_ctor : in_range ctor.
Proof. unfold in_range. simpl. lia. Qed.

Lemma in_range_setTemperature temp x :
  in_range x → in_range (setTemperature temp x).1.
Proof.
  intros Hx. destruct (setTemperature_cases temp x) as [->|(_ & Hin & ->)];
    [done|exact Hin].
Qed.

(** An object found in a store whose temperatures are all in the range. *)
Ltac stored :=
  match goal with
  | Hall : Forall in_range ?h, Hx : ?h !! ?a = Some ?x |- in_range _ =>
      exact (Forall_lookup_1 in_range h a x Hall Hx)
  end.

(** A statement that moves from no object keeps every temperature in the
    range. *)
Lemma thermostat_exec_in_range o h h' out :
  move_free o = true → Forall in_range h →
  thermostat_exec o h = Some (h', out) → Forall in_range h'.
Proof.
  intros Hfree Hall Hexec.
  destruct o as [[]|this temp]; try discriminate Hfree;
    unfold thermostat_exec, exec, call in Hexec; simplify_option_eq;
    try done.
  - apply Forall_app. split; [done|]. apply Forall_singleton, in_range_ctor.
  - apply Forall_insert; [done|stored].
  - apply Forall_insert; [done|stored].
  - apply Forall_app. split; [done|]. apply Forall_singleton. stored.
  - apply Forall_insert; [done|stored].
  - apply Forall_insert; [done|]. apply in_range_setTemperature. stored.
Qed.

Lemma thermostat_run_in_range os : ∀ h h' out,
  forallb move_free os = true → Forall in_range h →
  thermostat_run os h = Some (h', out) → Forall in_range h'.
Proof.
  induction os as [|o os IH]; intros h h' out Hfree Hall Hrun; simpl in *.
  - by simplify_eq.
  - apply andb_prop in Hfree as [Ho Hos].
    destruct (thermostat_exec o h) as [[h1 s1]|] eqn:Hexec; [|done].
    simpl in Hrun.
    destruct (thermostat_run os h1) as [[h2 s2]|] eqn:Hrest; [|done].
    simpl in Hrun. simplify_eq.
    eapply IH; [done| |done]. by eapply thermostat_exec_in_range.
Qed.

(** A member function that keeps the temperature, or sets it under the
    guard, called on one object of a store. *)
Lemma call_guarded (m : t → t * string) this h h' out :
  (∀ x, temperature (m x).1 ≠ temperature x →
        isOn x = true ∧ in_range (m x).1) →
  call m this h = Some (h', out) → temperature_guarded h h'.
Proof.
  intros Hm Hcall a x x' Hx Hx' Hne.
  unfold call in Hcall.
  destruct (h !! this) as [y|] eqn:Hy; simplify_eq/=.
  destruct (decide (this = a)) as [->|Hother].
  - rewrite list_lookup_insert_eq in Hx' by by eapply lookup_lt_Some.
    rewrite Hx in Hy. simplify_eq. by apply Hm.
  - rewrite list_lookup_insert_ne in Hx' by done.
    rewrite Hx in Hx'. by simplify_eq.
Qed.

(** Placing a new object at a fresh address leaves the others alone. *)
Lemma snoc_guarded h y : temperature_guarded h (h ++ [y]).
Proof.
  intros a x x' Hx Hx' Hne.
  rewrite lookup_app_l in Hx' by by eapply lookup_lt_Some.
  rewrite Hx in Hx'. by simplify_eq.
Qed.

Lemma thermostat_exec_guarded o h h' out :
  assigns_none o = true →
  thermostat_exec o h = Some (h', out) → temperature_guarded h h'.
Proof.
  intros Hnone Hexec.
  destruct o as [[]|this temp]; try discriminate Hnone; simpl in Hexec.
  - simplify_eq. apply snoc_guarded.
  - eapply call_guarded; [|done]. by intros x [].
  - eapply call_guarded; [|done]. by intros x [].
  - simplify_option_eq. apply snoc_guarded.
  - eapply call_guarded; [|done]. intros x Hne.
    destruct (setTemperature_cases temp x) as [Heq|(Hon & Hin & Heq)];
      rewrite Heq in *; [done|]. by split.
Qed.
End Temperature.

(** C1, as stated, fails: moving from a new thermostat, which is off,
    changes its temperature from 20 to 0. *)
Lemma move_breaks_temperature_guard :
  ¬ (∀ h o h' out,
       reachable h → thermostat_exec o h = Some (h', out) →
       temperature_guarded h h').
Proof.
  intros Hall.
  assert (reachable [ThermostatControl.ctor]) as Hreach
    by (by exists [Common New], "").
  destruct (Hall [ThermostatControl.ctor] (Common (MoveNew 0))
              [ThermostatControl.mk false 0; ThermostatControl.mk false 20] ""
              Hreach eq_refl 0 ThermostatControl.ctor
              (ThermostatControl.mk false 0) eq_refl eq_refl) as [Hon _];
    done.
Qed.

(** The copy assignment, too, changes the temperature of an object that is
    off: here from 20 to 25. *)
Example copy_assign_changes_off_thermostat :
  thermostat_run
    [Common New; Common New; Common (TurnOn 1); SetTemperature 1 25;
     Common (CopyAssign 0 1)] []
  = Some ([ThermostatControl.mk true 25; ThermostatControl.mk true 25],
          println "Thermostat is ON" +:+
          println "Thermostat temperature set to: 25").
Proof. reflexivity. Qed.

(** C1, amended.  In every store a program reaches, construction,
    [turnOn], [turnOff], [setTemperature] and copy construction change the
    temperature of an object only if it is on, and then to a value between
    10 and 30; and if the program moved from no object, every thermostat of
    the store has a temperature between 10 and 30. *)
Theorem temperature_guard (os : list thermostat_op)
    (h : list ThermostatControl.t) (out : string) :
  thermostat_run os [] = Some (h, out) →
  (∀ o h' out',
     assigns_none o = true → thermostat_exec o h = Some (h', out') →
     temperature_guarded h h') ∧
  (forallb move_free os = true → Forall in_range h).
Proof.
  intros Hrun. split.
  - intros o h' out'. apply thermostat_exec_guarded.
  - intros Hfree. by eapply thermostat_run_in_range.
Qed.

Lemma temperature_guard_witness :
  thermostat_run [Common New; Common (TurnOn 0); SetTemperature 0 25] []
    = Some ([ThermostatControl.mk true 25],
            println "Thermostat is ON" +:+
            println "Thermostat temperature set to: 25") ∧
  temperature_guarded [ThermostatControl.mk true 25]
    [ThermostatControl.mk true 30] ∧
  Forall in_range [ThermostatControl.mk true 25].
Proof.
  split; [reflexivity|].
  destruct (temperature_guard
              [Common New; Common (TurnOn 0); SetTemperature 0 25]
              [ThermostatControl.mk true 25] _ eq_refl) as [Hstep Hall].
  split.
  - exact (Hstep (SetTemperature 0 30) [ThermostatControl.mk true 30] _
             eq_refl eq_refl).
  - exact (Hall eq_refl).
Defined.

(** ** Moved-from objects *)

Section MovedFromFacts.
Context `{ElectronicDeviceControl T, RuleOfFive T}.

(** If both move operations of a class write [fixed] into [other], then
    [fixed] is what the object at [other] holds after a move construction
    and after a move assignment to another object; a move assignment of an
    object to itself is skipped by the guard [this != &other]. *)
Lemma moved_from_intro (fixed : T) :
  (∀ y, (move_ctor y).2 = fixed) →
  (∀ x y, (move_assign_fields x y).2 = fixed) →
  moved_from_is fixed.
Proof.
  intros Hctor Hassign. repeat split.
  - intros h other h' out Hexec. simpl in Hexec.
    destruct (h !! other) as [y|] eqn:Hy; simplify_eq/=.
    rewrite Hctor, lookup_app_l by (rewrite length_insert; by eapply lookup_lt_Some).
    apply list_lookup_insert_eq. by eapply lookup_lt_Some.
  - intros h this other h' out Hne Hexec. simpl in Hexec.
    destruct (h !! this) as [x|] eqn:Hx; simplify_eq/=.
    destruct (h !! other) as [y|] eqn:Hy; simplify_eq/=.
    rewrite decide_True in Hexec by done. simplify_eq.
    rewrite Hassign. apply list_lookup_insert_eq.
    rewrite length_insert. by eapply lookup_lt_Some.
  - intros h this h' out Hexec. simpl in Hexec.
    destruct (h !! this) as [x|] eqn:Hx; simplify_eq/=.
    rewrite decide_False in Hexec by (by intros []). by simplify_eq.
Qed.
End MovedFromFacts.

(** C9, as stated, fails for a move assignment of an object to itself: a
    thermostat that is on at 25 is still on at 25 afterwards. *)
Lemma self_move_assign_keeps_state :
  ¬ (∀ (h : list ThermostatControl.t) this other h' out,
       exec (MoveAssign this other) h = Some (h', out) →
       h' !! other = Some (ThermostatControl.mk false 0)).
Proof.
  intros Hall.
  specialize (Hall [ThermostatControl.mk true 25] 0 0
                [ThermostatControl.mk true 25] "" eq_refl).
  discriminate Hall.
Qed.

(** C9, amended.  A move construction, and a move assignment from another
    object, leave the moved-from object in a fixed state: a light off, a
    garage door closed, a smart lock locked, a thermostat off at
    temperature 0, which is outside the range from 10 to 30; a move
    assignment of an object to itself changes nothing. *)
Theorem moved_from_states :
  moved_from_is (LightControl.mk false) ∧
  moved_from_is (GarageDoorControl.mk false) ∧
  moved_from_is (SmartLockControl.mk true) ∧
  moved_from_is (ThermostatControl.mk false 0) ∧
  ¬ in_range (ThermostatControl.mk false 0).
Proof.
  split_and!; [by apply moved_from_intro..|].
  unfold in_range. simpl. lia.
Qed.

Lemma moved_from_states_witness :
  0 ≠ 1 ∧
  exec (MoveAssign 0 1)
    [ThermostatControl.mk false 20; ThermostatControl.mk true 25]
    = Some ([ThermostatControl.mk true 25; ThermostatControl.mk false 0], "") ∧
  [ThermostatControl.mk true 25; ThermostatControl.mk false 0] !! 1
    = Some (ThermostatControl.mk false 0).
Proof.
  split; [discriminate|]. split; [reflexivity|].
  destruct moved_from_states as (_ & _ & _ & (_ & Hassign & _) & _).
  exact (Hassign [ThermostatControl.mk false 20; ThermostatControl.mk true 25]
           0 1 _ "" ltac:(discriminate) eq_refl).
Defined.

(** ** Copies and moves *)

Section TransferFacts.
Context `{ElectronicDeviceControl T, RuleOfFive T}.

Lemma copy_transfers_intro :
  (∀ y : T, copy_ctor y = y) →
  (∀ x y : T, copy_assign_fields x y = y) →
  copy_transfers.
Proof.
  intros Hctor Hassign. split.
  - intros h other h' out Hexec. simpl in Hexec.
    destruct (h !! other) as [y|] eqn:Hy; simplify_eq/=.
    exists y. by rewrite Hctor.
  - intros h this other h' out Hexec. simpl in Hexec.
    destruct (h !! this) as [x|] eqn:Hx; simplify_eq/=.
    destruct (h !! other) as [y|] eqn:Hy; simplify_eq/=.
    exists y. split; [done|].
    destruct (decide (this = other)) as [->|Hne].
    + rewrite decide_False in Hexec by (by intros []). simplify_eq.
      symmetry. by apply list_insert_id.
    + rewrite decide_True in Hexec by done. simplify_eq. by rewrite Hassign.
Qed.

Lemma move_transfers_intro :
  (∀ y : T, (move_ctor y).1 = y) →
  (∀ x y : T, (move_assign_fields x y).1 = y) →
  move_transfers.
Proof.
  intros Hctor Hassign. split.
  - intros h other h' out Hexec. simpl in Hexec.
    destruct (h !! other) as [y|] eqn:Hy; simplify_eq/=.
    rewrite Hctor, length_app, length_insert. simpl. split; [|lia].
    apply list_lookup_middle. by rewrite length_insert.
  - intros h this other h' out Hexec. simpl in Hexec.
    destruct (h !! this) as [x|] eqn:Hx; simplify_eq/=.
    destruct (h !! other) as [y|] eqn:Hy; simplify_eq/=.
    destruct (decide (this = other)) as [->|Hne].
    + rewrite decide_False in Hexec by (by intros []). by simplify_eq.
    + rewrite decide_True in Hexec by done. simplify_eq.
      rewrite !length_insert. split; [|done].
      rewrite list_lookup_insert_ne by done. rewrite Hassign.
      apply list_lookup_insert_eq. by eapply lookup_lt_Some.
Qed.
End TransferFacts.

(** X2.  For each of the four classes, the copy constructor adds an object
    equal to its source and changes nothing else, and the copy assignment
    gives the target the source's state and changes nothing else (nothing
    at all when an object is assigned to itself); the source is as it
    was. *)
Theorem copies_are_faithful :
  @copy_transfers LightControl.t _ _ ∧
  @copy_transfers ThermostatControl.t _ _ ∧
  @copy_transfers SmartLockControl.t _ _ ∧
  @copy_transfers GarageDoorControl.t _ _.
Proof. split_and!; apply copy_transfers_intro; by repeat intros []. Qed.

Lemma copies_are_faithful_witness :
  exec (CopyAssign 0 1)
    [ThermostatControl.mk false 20; ThermostatControl.mk true 25]
  = Some ([ThermostatControl.mk true 25; ThermostatControl.mk true 25], "") ∧
  ∃ y, [ThermostatControl.mk false 20; ThermostatControl.mk true 25] !! 1
         = Some y ∧
       [ThermostatControl.mk true 25; ThermostatControl.mk true 25]
         = <[0 := y]> [ThermostatControl.mk false 20;
                       ThermostatControl.mk true 25].
Proof.
  split; [reflexivity|].
  destruct copies_are_faithful as (_ & (_ & Hassign) & _).
  exact (Hassign [ThermostatControl.mk false 20; ThermostatControl.mk true 25]
           0 1 _ "" eq_refl).
Defined.

(** X3.  For each of the four classes, the object built by the move
    constructor, and the target of a move assignment, hold the state the
    source had before; the move constructor adds one object and the move
    assignment none. *)
Theorem moves_hand_over_state :
  @move_transfers LightControl.t _ _ ∧
  @move_transfers ThermostatControl.t _ _ ∧
  @move_transfers SmartLockControl.t _ _ ∧
  @move_transfers GarageDoorControl.t _ _.
Proof. split_and!; apply move_transfers_intro; by repeat intros []. Qed.

Lemma moves_hand_over_state_witness :
  exec (MoveNew 0) [ThermostatControl.mk true 25]
  = Some ([ThermostatControl.mk false 0; ThermostatControl.mk true 25], "") ∧
  [ThermostatControl.mk false 0; ThermostatControl.mk true 25] !! 1
  = [ThermostatControl.mk true 25] !! 0.
Proof.
  split; [reflexivity|].
  destruct moves_hand_over_state as (_ & (Hnew & _) & _).
  exact (proj1 (Hnew [ThermostatControl.mk true 25] 0 _ "" eq_refl)).
Defined.

(** ** Repeated switching and setting *)

(** X4.  For each of the four classes a switch overrides the one before
    it: [turnOn] after [turnOn] or [turnOff] gives the object and the
    output of a single [turnOn], and likewise for [turnOff]; so switching
    twice the same way is switching once. *)
Theorem switches_override :
  @switch_overrides LightControl.t _ ∧
  @switch_overrides ThermostatControl.t _ ∧
  @switch_overrides SmartLockControl.t _ ∧
  @switch_overrides GarageDoorControl.t _.
Proof. split_and!; by intros []. Qed.

(** X5.  A second [setTemperature] after a first one: its notice is the
    one it would write without the first call; on a thermostat that is on,
    a value between 10 and 30 is stored and announced, replacing whatever
    the first call stored; otherwise the object is left as the first call
    left it; and calling it twice with the same value is calling it
    once. *)
Theorem setTemperature_repeated (v1 v2 : Z) (x : ThermostatControl.t) :
  (ThermostatControl.setTemperature v2
     (ThermostatControl.setTemperature v1 x).1).2
    = (ThermostatControl.setTemperature v2 x).2 ∧
  (ThermostatControl.isOn x = true → (10 ≤ v2 ≤ 30)%Z →
   ThermostatControl.setTemperature v2
     (ThermostatControl.setTemperature v1 x).1
   = (ThermostatControl.mk true v2,
      println ("Thermostat temperature set to: " +:+ pretty v2))) ∧
  (ThermostatControl.isOn x = false ∨ (v2 < 10 ∨ 30 < v2)%Z →
   (ThermostatControl.setTemperature v2
      (ThermostatControl.setTemperature v1 x).1).1
   = (ThermostatControl.setTemperature v1 x).1) ∧
  ThermostatControl.setTemperature v2
    (ThermostatControl.setTemperature v2 x).1
    = ThermostatControl.setTemperature v2 x.
Proof.
  assert (∀ v, ThermostatControl.isOn (ThermostatControl.setTemperature v x).1
               = ThermostatControl.isOn x) as Hflag.
  { intros v. destruct (setTemperature_cases v x) as [->|(Hon & _ & ->)];
      [done|by rewrite Hon]. }
  destruct (ThermostatControl.isOn x) eqn:Hon.
  - destruct (decide (10 ≤ v2 ≤ 30)%Z) as [Hin|Hout].
    + rewrite !(setTemperature_accepted v2) by (done || by rewrite Hflag).
      split_and!; [done|done|intros [?|?]; done || lia|done].
    + rewrite !(setTemperature_out_of_range v2)
        by (rewrite ?Hflag; done || lia).
      split_and!; [done|intros; lia|done|done].
  - rewrite !(setTemperature_off v2) by (done || by rewrite Hflag).
    split_and!; done.
Qed.

Lemma setTemperature_repeated_witness :
  ThermostatControl.isOn (ThermostatControl.mk true 20) = true ∧
  (10 ≤ 30 ≤ 30)%Z ∧
  ThermostatControl.setTemperature 30
    (ThermostatControl.setTemperature 12 (ThermostatControl.mk true 20)).1
  = (ThermostatControl.mk true 30,
     println "Thermostat temperature set to: 30").
Proof.
  split; [reflexivity|]. split; [lia|].
  exact (proj1 (proj2 (setTemperature_repeated 12 30
                         (ThermostatControl.mk true 20)))
           eq_refl ltac:(lia)).
Defined.

(** X6.  The notice tells the outcome of [setTemperature]: the line with
    the value is written exactly when the thermostat is on and the value
    is between 10 and 30, the off notice exactly when the thermostat is
    off, and the range notice exactly when it is on and the value is
    outside the range. *)
Theorem setTemperature_notice (temp : Z) (x : ThermostatControl.t) :
  ((ThermostatControl.setTemperature temp x).2
     = println ("Thermostat temperature set to: " +:+ pretty temp)
   ↔ ThermostatControl.isOn x = true ∧ (10 ≤ temp ≤ 30)%Z) ∧
  ((ThermostatControl.setTemperature temp x).2
     = println "Cannot set temperature, thermostat is off."
   ↔ ThermostatControl.isOn x = false) ∧
  ((ThermostatControl.setTemperature temp x).2
     = println "Invalid temperature. Temperature must be between 10 and 30."
   ↔ ThermostatControl.isOn x = true ∧ (temp < 10 ∨ 30 < temp)%Z).
Proof.
  destruct (ThermostatControl.isOn x) eqn:Hon.
  - destruct (decide (10 ≤ temp ≤ 30)%Z) as [Hin|Hout].
    + rewrite setTemperature_accepted by done. simpl.
      split_and!; split; try done; intros; try discriminate; lia.
    + rewrite setTemperature_out_of_range by (done || lia). simpl.
      split_and!; split; try done; intros; try discriminate; lia.
  - rewrite setTemperature_off by done. simpl.
    split_and!; split; try done; try (by intros [? ?]); intros; discriminate.
Qed.

(** ** The thermostat states a program can reach *)

Section ReachableStates.
Import ThermostatControl.
Local Open Scope Z_scope.

(** An object found in a store whose temperatures are all in the range or
    reset. *)
Ltac kept :=
  match goal with
  | Hall : Forall in_range_or_reset ?h, Hx : ?h !! ?a = Some ?x |- _ =>
      exact (Forall_lookup_1 in_range_or_reset h a x Hall Hx)
  end.

Lemma reset_setTemperature temp x :
  in_range_or_reset x → in_range_or_reset (setTemperature temp x).1.
Proof.
  intros Hx. destruct (setTemperature_cases temp x) as [->|(_ & Hin & ->)];
    [done|by left].
Qed.

Lemma thermostat_exec_reset o h h' out :
  Forall in_range_or_reset h →
  thermostat_exec o h = Some (h', out) → Forall in_range_or_reset h'.
Proof.
  intros Hall Hexec.
  destruct o as [[]|this temp];
    unfold thermostat_exec, exec, call in Hexec; simplify_option_eq;
    try done.
  - apply Forall_app. split; [done|]. apply Forall_singleton.
    left. apply in_range_ctor.
  - apply Forall_insert; [done|kept].
  - apply Forall_insert; [done|kept].
  - apply Forall_app. split; [done|]. apply Forall_singleton. kept.
  - apply Forall_insert; [done|kept].
  - apply Forall_app. split; [|apply Forall_singleton; kept].
    apply Forall_insert; [done|by right].
  - apply Forall_insert; [|by right]. apply Forall_insert; [done|kept].
  - apply Forall_insert; [done|]. apply reset_setTemperature. kept.
Qed.

Lemma thermostat_run_reset os : ∀ h h' out,
  Forall in_range_or_reset h →
  thermostat_run os h = Some (h', out) → Forall in_range_or_reset h'.
Proof.
  induction os as [|o os IH]; intros h h' out Hall Hrun; simpl in *.
  - by simplify_eq.
  - destruct (thermostat_exec o h) as [[h1 s1]|] eqn:Hexec; [|done].
    simpl in Hrun.
    destruct (thermostat_run os h1) as [[h2 s2]|] eqn:Hrest; [|done].
    simpl in Hrun. simplify_eq.
    eapply IH; [|done]. by eapply thermostat_exec_reset.
Qed.

(** A program that builds a thermostat with a given flag and a given
    temperature in the range. *)
Lemma reachable_in_range on temp :
  10 ≤ temp ≤ 30 → reachable [mk on temp].
Proof.
  intros Hin.
  exists ([Common New; Common (TurnOn 0); SetTemperature 0 temp]
            ++ (if on then [] else [Common (TurnOff 0)])).
  destruct on; eexists; cbn -[setTemperature];
    rewrite setTemperature_accepted by done; reflexivity.
Qed.

(** A program that builds a thermostat with a given flag and temperature
    0: it moves from a new one. *)
Lemma reachable_reset on :
  reachable [mk on 0; mk false 20].
Proof.
  exists ([Common New; Common (MoveNew 0)]
            ++ (if on then [Common (TurnOn 0)] else [])).
  destruct on; eexists; reflexivity.
Qed.
End ReachableStates.

(** X7.  A thermostat state occurs in a store some program reaches exactly
    when its temperature is 0 or between 10 and 30; the on flag is free. *)
Theorem reachable_thermostat_states (x : ThermostatControl.t) :
  (∃ h, reachable h ∧ x ∈ h) ↔ in_range_or_reset x.
Proof.
  split.
  - intros (h & (os & out & Hrun) & Hx).
    apply thermostat_run_reset in Hrun; [|constructor].
    by apply (proj1 (Forall_forall _ _) Hrun).
  - destruct x as [on temp]. intros [Hin|Hzero]; simpl in *.
    + exists [ThermostatControl.mk on temp].
      split; [by apply reachable_in_range|apply list_elem_of_here].
    + subst temp.
      exists [ThermostatControl.mk on 0; ThermostatControl.mk false 20].
      split; [apply reachable_reset|apply list_elem_of_here].
Qed.

(** ** The lines a program writes *)

Lemma newlines_one_line n out : one_documented_line n out → newlines out = 1.
Proof.
  intros (line & -> & Hline & _). unfold println.
  rewrite newlines_app, Hline. reflexivity.
Qed.

Lemma thermostat_exec_newlines o h h' out :
  thermostat_exec o h = Some (h', out) →
  newlines out = if prints o then 1 else 0.
Proof.
  intros Hexec. destruct o as [o|this temp]; simpl in *.
  - apply exec_emits in Hexec; [|intros; simpl; documented..].
    unfold emits in Hexec. destruct (switches o).
    + apply (newlines_one_line 0), Hexec.
    + by subst out.
  - unfold call in Hexec. simplify_option_eq.
    eapply newlines_one_line, setTemperature_emits.
Qed.

(** X8.  A thermostat program writes as many lines as it has [turnOn],
    [turnOff] and [setTemperature] statements, whether they are accepted
    or not. *)
Theorem thermostat_run_lines (os : list thermostat_op)
    (h h' : list ThermostatControl.t) (out : string) :
  thermostat_run os h = Some (h', out) →
  newlines out = length (List.filter prints os).
Proof.
  revert h h' out. induction os as [|o os IH]; intros h h' out Hrun;
    simpl in *.
  - by simplify_eq.
  - destruct (thermostat_exec o h) as [[h1 s1]|] eqn:Hexec; [|done].
    simpl in Hrun.
    destruct (thermostat_run os h1) as [[h2 s2]|] eqn:Hrest; [|done].
    simpl in Hrun. simplify_eq.
    rewrite newlines_app, (IH _ _ _ Hrest),
      (thermostat_exec_newlines _ _ _ _ Hexec).
    by destruct (prints o).
Qed.

Lemma thermostat_run_lines_witness :
  thermostat_run
    [Common New; SetTemperature 0 25; Common (TurnOn 0); SetTemperature 0 31;
     Common (CopyNew 0)] []
  = Some ([ThermostatControl.mk true 20; ThermostatControl.mk true 20],
          println "Cannot set temperature, thermostat is off." +:+
          println "Thermostat is ON" +:+
          println "Invalid temperature. Temperature must be between 10 and 30.")
  ∧ newlines
      (println "Cannot set temperature, thermostat is off." +:+
       println "Thermostat is ON" +:+
       println "Invalid temperature. Temperature must be between 10 and 30.")
    = 3.
Proof.
  split; [reflexivity|].
  exact (thermostat_run_lines
           [Common New; SetTemperature 0 25; Common (TurnOn 0);
            SetTemperature 0 31; Common (CopyNew 0)] [] _ _ eq_refl).
Defined.
